(** * mnist_nets.py: the MNIST convolutional network builder

    [mnist_convnet] imports seven constructors from four modules of the
    tflearn layer library and then makes a straight sequence of thirteen
    calls to them, each taking the tensor returned by the previous one.  The
    library is outside the repository, so the function is embedded as a
    program over the library's interface: a tree of imports and calls whose
    continuations receive the tensor the library hands back.  A library is
    any stateful, fallible handler of these imports and calls.  The library
    that merely records each call yields the topology descriptor of the
    specification. *)

From Stdlib Require Import ZArith List String Floats Bool Lia.
Import ListNotations.

Set Warnings "-register-all,-inexact-float".

Open Scope string_scope.
Open Scope Z_scope.
Open Scope list_scope.

(** ** Python values received as arguments *)

Inductive pyval : Type :=
| PyNone
| PyBool (b : bool)
| PyInt (z : Z)
| PyFloat (f : float)
| PyStr (s : string)
| PyList (l : list pyval).

(** ** The tflearn call interface, as [mnist_convnet] uses it

    A call records the positional and keyword arguments the source passes
    and nothing else.  A dimension of a shape is [None] or an integer. *)

Module TFLearn.

Section Calls.

Variable tensor : Type.

Inductive call : Type :=
| InputData (shape : list (option Z)) (name : string)
| Conv2d (incoming : tensor) (nb_filter filter_size : Z)
         (activation regularizer name : string)
| MaxPool2d (incoming : tensor) (kernel_size : Z) (name : string)
| LocalResponseNormalization (incoming : tensor)
| FullyConnected (incoming : tensor) (n_units : Z) (activation name : string)
| Dropout (incoming : tensor) (keep_prob : pyval) (name : string)
| Regression (incoming : tensor) (optimizer : string) (learning_rate : pyval)
             (loss name : string).

End Calls.

Arguments InputData {tensor}.
Arguments Conv2d {tensor}.
Arguments MaxPool2d {tensor}.
Arguments LocalResponseNormalization {tensor}.
Arguments FullyConnected {tensor}.
Arguments Dropout {tensor}.
Arguments Regression {tensor}.

(** The kind of layer a call constructs. *)
Inductive kind : Type :=
| KInput | KConv | KMaxPool | KLrn | KFullyConnected | KDropout | KRegression.

Definition kind_of {T} (c : call T) : kind :=
  match c with
  | InputData _ _ => KInput
  | Conv2d _ _ _ _ _ _ => KConv
  | MaxPool2d _ _ _ => KMaxPool
  | LocalResponseNormalization _ => KLrn
  | FullyConnected _ _ _ _ => KFullyConnected
  | Dropout _ _ _ => KDropout
  | Regression _ _ _ _ _ => KRegression
  end.

(** The arguments of a call other than the incoming tensor. *)
Definition hyper {T} (c : call T) : call unit :=
  match c with
  | InputData sh n => InputData sh n
  | Conv2d _ f k a r n => Conv2d tt f k a r n
  | MaxPool2d _ k n => MaxPool2d tt k n
  | LocalResponseNormalization _ => LocalResponseNormalization tt
  | FullyConnected _ u a n => FullyConnected tt u a n
  | Dropout _ p n => Dropout tt p n
  | Regression _ o lr l n => Regression tt o lr l n
  end.

(** The [name] keyword of a call; [local_response_normalization] is called
    without one. *)
Definition name_of {T} (c : call T) : option string :=
  match c with
  | InputData _ n | Conv2d _ _ _ _ _ n | MaxPool2d _ _ n
  | FullyConnected _ _ _ n | Dropout _ _ n | Regression _ _ _ _ n => Some n
  | LocalResponseNormalization _ => None
  end.

End TFLearn.

Import TFLearn.

(** ** Programs over the library

    [Import m ns k] is the statement [from m import ns], followed by [k];
    [Call c k] asks the library for [c] and goes on with [k] applied to the
    tensor it returns; [Raise e] is Python's [raise]. *)

Inductive prog (T E R : Type) : Type :=
| Return (r : R)
| Raise (e : E)
| Import (modname : string) (names : list string) (k : prog T E R)
| Call (c : call T) (k : T -> prog T E R).

Arguments Return {T E R}.
Arguments Raise {T E R}.
Arguments Import {T E R}.
Arguments Call {T E R}.

Fixpoint bind {T E A B} (p : prog T E A) (f : A -> prog T E B) : prog T E B :=
  match p with
  | Return a => f a
  | Raise e => Raise e
  | Import m ns k => Import m ns (bind k f)
  | Call c k => Call c (fun t => bind (k t) f)
  end.

Notation "x <- p ;; q" := (bind p (fun x => q))
  (at level 61, p at next level, right associativity).

Notation "p ;; q" := (bind p (fun _ => q))
  (at level 61, right associativity).

(** The defaults of the signature, line 1. *)
Definition default_learning_rate : pyval := PyFloat 0.001%float.
Definition default_drop_prob : pyval := PyFloat 0.8%float.

Section Layers.

Context {T E : Type}.

Definition import_from (modname : string) (names : list string) : prog T E unit :=
  Import modname names (Return tt).

Definition input_data (shape : list (option Z)) (name : string) : prog T E T :=
  Call (InputData shape name) Return.

Definition conv_2d (incoming : T) (nb_filter filter_size : Z)
           (activation regularizer name : string) : prog T E T :=
  Call (Conv2d incoming nb_filter filter_size activation regularizer name) Return.

Definition max_pool_2d (incoming : T) (kernel_size : Z) (name : string) : prog T E T :=
  Call (MaxPool2d incoming kernel_size name) Return.

Definition local_response_normalization (incoming : T) : prog T E T :=
  Call (LocalResponseNormalization incoming) Return.

Definition fully_connected (incoming : T) (n_units : Z)
           (activation name : string) : prog T E T :=
  Call (FullyConnected incoming n_units activation name) Return.

Definition dropout (incoming : T) (keep_prob : pyval) (name : string) : prog T E T :=
  Call (Dropout incoming keep_prob name) Return.

Definition regression (incoming : T) (optimizer : string) (learning_rate : pyval)
           (loss name : string) : prog T E T :=
  Call (Regression incoming optimizer learning_rate loss name) Return.

(** *** The builder (mnist_nets.py, lines 1-22) *)

Definition mnist_convnet
           (train_images train_labels learning_rate drop_prob : pyval) : prog T E T :=
  import_from "tflearn.layers.core" ["input_data"; "dropout"; "fully_connected"] ;;
  import_from "tflearn.layers.conv" ["conv_2d"; "max_pool_2d"] ;;
  import_from "tflearn.layers.normalization" ["local_response_normalization"] ;;
  import_from "tflearn.layers.estimator" ["regression"] ;;
  (* Building convolutional network *)
  network <- input_data [None; Some 28; Some 28; Some 1] "input" ;;
  network <- conv_2d network 32 3 "relu" "L2" "conv2D" ;;
  network <- max_pool_2d network 2 "max_pool_2d" ;;
  network <- local_response_normalization network ;;
  network <- conv_2d network 64 3 "relu" "L2" "conv2D" ;;
  network <- max_pool_2d network 2 "max_pool_2d" ;;
  network <- local_response_normalization network ;;
  network <- fully_connected network 128 "tanh" "tabh" ;;
  network <- dropout network drop_prob "dropout" ;;
  network <- fully_connected network 256 "tanh" "tabh" ;;
  network <- dropout network drop_prob "dropout" ;;
  network <- fully_connected network 10 "softmax" "softmax" ;;
  network <- regression network "adam" learning_rate
                        "categorical_crossentropy" "target" ;;
  Return network.

(** A Python call of [mnist_convnet]: the two positional arguments, and
    the two keyword arguments, each given or left to its default. *)
Definition mnist_convnet_call (train_images train_labels : pyval)
           (learning_rate drop_prob : option pyval) : prog T E T :=
  mnist_convnet train_images train_labels
    (match learning_rate with Some v => v | None => default_learning_rate end)
    (match drop_prob with Some v => v | None => default_drop_prob end).

End Layers.

(** ** Running a program against a library

    A library answers an import, in its current state, with an exception
    or nothing, and a call with an exception or a tensor; either way with a
    new state.  [exec] returns the calls made with their answers, in order,
    the outcome and the final state. *)

(** A step of a run: an import, or a call with its arguments other than
    the incoming tensor. *)
Inductive step : Type :=
| ImportStep (modname : string) (names : list string)
| CallStep (h : call unit).

Section Exec.

Context {T E S : Type}.

Record library : Type := Library {
  construct : call T -> S -> (E + T) * S;
  import_module : string -> list string -> S -> option E * S
}.

Definition log : Type := list (call T * (E + T)).

Fixpoint exec {R} (lib : library) (p : prog T E R) (s : S) : log * (E + R) * S :=
  match p with
  | Return r => ([], inr r, s)
  | Raise e => ([], inl e, s)
  | Import m ns k =>
      match import_module lib m ns s with
      | (Some e, s') => ([], inl e, s')
      | (None, s') => exec lib k s'
      end
  | Call c k =>
      match construct lib c s with
      | (inl e, s') => ([(c, inl e)], inl e, s')
      | (inr t, s') =>
          let '(l, out, s'') := exec lib (k t) s' in
          ((c, inr t) :: l, out, s'')
      end
  end.

Definition trace {R} (lib : library) (p : prog T E R) (s : S) : log :=
  fst (fst (exec lib p s)).

Definition calls_made {R} (lib : library) (p : prog T E R) (s : S) : list (call T) :=
  map fst (trace lib p s).

Definition outcome {R} (lib : library) (p : prog T E R) (s : S) : E + R :=
  snd (fst (exec lib p s)).

(** Everything the run asked of the library, imports and calls, with the
    answers, in order. *)
Inductive event : Type :=
| Imported (modname : string) (names : list string) (r : option E)
| Called (c : call T) (r : E + T).

Fixpoint events {R} (lib : library) (p : prog T E R) (s : S) : list event :=
  match p with
  | Return _ => []
  | Raise _ => []
  | Import m ns k =>
      match import_module lib m ns s with
      | (Some e, _) => [Imported m ns (Some e)]
      | (None, s') => Imported m ns None :: events lib k s'
      end
  | Call c k =>
      match construct lib c s with
      | (inl e, _) => [Called c (inl e)]
      | (inr t, s') => Called c (inr t) :: events lib (k t) s'
      end
  end.

Definition step_of (ev : event) : step :=
  match ev with
  | Imported m ns _ => ImportStep m ns
  | Called c _ => CallStep (hyper c)
  end.

(** The exception the library answered, if it did. *)
Definition raised (ev : event) : option E :=
  match ev with
  | Imported _ _ r => r
  | Called _ (inl e) => Some e
  | Called _ (inr _) => None
  end.


(** The calls among the events, as [trace] logs them. *)
Definition calls_of (evs : list event) : log :=
  flat_map (fun ev => match ev with
                      | Called c r => [(c, r)]
                      | Imported _ _ _ => []
                      end) evs.

(** The program has no [raise] of its own, whatever the library returns. *)
Fixpoint raise_free {R} (p : prog T E R) : Prop :=
  match p with
  | Return _ => True
  | Raise _ => False
  | Import _ _ k => raise_free k
  | Call _ k => forall t, raise_free (k t)
  end.

(** The program makes the calls with the arguments [hs], in this order,
    whatever tensors the library returns, and then returns. *)
Inductive straight {R} : prog T E R -> list (call unit) -> Prop :=
| straight_return r : straight (Return r) []
| straight_import m ns k hs :
    straight k hs -> straight (Import m ns k) hs
| straight_call c k hs :
    (forall t, straight (k t) hs) -> straight (Call c k) (hyper c :: hs).

(** The program runs the steps [sc], imports and calls, in this order,
    whatever the library returns, and then returns: it has no branch, loop
    or [raise], and the arguments of its calls other than the tensors are
    fixed. *)
Inductive scripted {R} : prog T E R -> list step -> Prop :=
| scripted_return r : scripted (Return r) []
| scripted_import m ns k sc :
    scripted k sc -> scripted (Import m ns k) (ImportStep m ns :: sc)
| scripted_call c k sc :
    (forall t, scripted (k t) sc) -> scripted (Call c k) (CallStep (hyper c) :: sc).

(** The library never answers with an exception. *)
Definition returns (lib : library) : Prop :=
  (forall m ns s, exists s', import_module lib m ns s = (None, s')) /\
  (forall c s, exists t s', construct lib c s = (inr t, s')).

End Exec.

Arguments library : clear implicits.
Arguments log : clear implicits.
Arguments event : clear implicits.

(** ** The topology descriptor

    The recording library lets every import pass and answers each call
    with the call itself, so a tensor is the chain of layers that leads to
    it. *)

Inductive topology : Type :=
| Layer (c : call topology).

Definition recorder {E} : library topology E unit :=
  {| construct := fun c s => (inr (Layer c), s);
     import_module := fun _ _ s => (None, s) |}.

(** The layer specifications of a topology, the input first. *)
Fixpoint layers (t : topology) : list (call unit) :=
  match t with
  | Layer c =>
      match c with
      | InputData sh n => [InputData sh n]
      | Conv2d t' f k a r n => layers t' ++ [Conv2d tt f k a r n]
      | MaxPool2d t' k n => layers t' ++ [MaxPool2d tt k n]
      | LocalResponseNormalization t' => layers t' ++ [LocalResponseNormalization tt]
      | FullyConnected t' u a n => layers t' ++ [FullyConnected tt u a n]
      | Dropout t' p n => layers t' ++ [Dropout tt p n]
      | Regression t' o lr l n => layers t' ++ [Regression tt o lr l n]
      end
  end.

(** What [mnist_convnet] returns under the recording library. *)
Definition built (p : prog topology Empty_set topology) : option topology :=
  match outcome recorder p tt with
  | inr t => Some t
  | inl _ => None
  end.

(** The layer on which the regression wrapper is applied. *)
Definition output_layer (t : topology) : option (call unit) :=
  match t with
  | Layer (Regression (Layer c) _ _ _ _) => Some (hyper c)
  | _ => None
  end.

(** Keep-probabilities of the dropout layers, learning rates of the
    regression layers, in layer order. *)
Definition keep_probs (ls : list (call unit)) : list pyval :=
  flat_map (fun c => match c with Dropout _ p _ => [p] | _ => [] end) ls.

Definition learning_rates (ls : list (call unit)) : list pyval :=
  flat_map (fun c => match c with Regression _ _ lr _ _ => [lr] | _ => [] end) ls.

(** The [name] keywords given, in layer order, and how often one occurs. *)
Definition names (ls : list (call unit)) : list string :=
  flat_map (fun c => match name_of c with Some n => [n] | None => [] end) ls.

Definition occurrences (n : string) (ns : list string) : nat :=
  count_occ string_dec ns n.

Definition unique_names (ns : list string) : list string :=
  filter (fun n => Nat.eqb (occurrences n ns) 1) ns.

(** How many layers of [ls] were given the [name] keyword of [c]. *)
Definition name_count (ls : list (call unit)) (c : call unit) : nat :=
  match name_of c with
  | Some n => occurrences n (names ls)
  | None => 0%nat
  end.

(** The thirteen layer specifications of lines 8-21. *)
Definition convnet_layers (learning_rate drop_prob : pyval) : list (call unit) :=
  [ InputData [None; Some 28; Some 28; Some 1] "input";
    Conv2d tt 32 3 "relu" "L2" "conv2D";
    MaxPool2d tt 2 "max_pool_2d";
    LocalResponseNormalization tt;
    Conv2d tt 64 3 "relu" "L2" "conv2D";
    MaxPool2d tt 2 "max_pool_2d";
    LocalResponseNormalization tt;
    FullyConnected tt 128 "tanh" "tabh";
    Dropout tt drop_prob "dropout";
    FullyConnected tt 256 "tanh" "tabh";
    Dropout tt drop_prob "dropout";
    FullyConnected tt 10 "softmax" "softmax";
    Regression tt "adam" learning_rate "categorical_crossentropy" "target" ].

(** The four imports of lines 2-5, and the steps of the whole body. *)
Definition convnet_imports : list step :=
  [ ImportStep "tflearn.layers.core" ["input_data"; "dropout"; "fully_connected"];
    ImportStep "tflearn.layers.conv" ["conv_2d"; "max_pool_2d"];
    ImportStep "tflearn.layers.normalization" ["local_response_normalization"];
    ImportStep "tflearn.layers.estimator" ["regression"] ].

Definition convnet_script (learning_rate drop_prob : pyval) : list step :=
  convnet_imports ++ map CallStep (convnet_layers learning_rate drop_prob).

(** ** Two libraries for examples

    [picky] records like [recorder], but rejects a keep-probability that is
    not a float.  [uninstalled] has no module to import. *)
Definition picky : library topology string unit :=
  {| construct := fun c s =>
       match c with
       | Dropout _ (PyFloat _) _ => (inr (Layer c), s)
       | Dropout _ _ _ => (inl "keep_prob", s)
       | _ => (inr (Layer c), s)
       end;
     import_module := fun _ _ s => (None, s) |}.

Definition uninstalled : library topology string unit :=
  {| construct := fun c s => (inr (Layer c), s);
     import_module := fun _ _ s => (Some "ModuleNotFoundError", s) |}.

(** ** Data flow between the calls

    Every line of the body after line 8 rebinds [network] to a call on the
    previous [network]; line 22 returns the last one. *)

(** The tensor a call is applied to, when it has one. *)
Definition incoming_of {T} (c : call T) : option T :=
  match c with
  | InputData _ _ => None
  | Conv2d t _ _ _ _ _ | MaxPool2d t _ _ | LocalResponseNormalization t
  | FullyConnected t _ _ _ | Dropout t _ _ | Regression t _ _ _ _ => Some t
  end.

Section Flow.

Context {T E : Type}.

(** The program applies each call to [prev], the tensor the call before it
    returned ([None] before the first call), and returns the tensor of its
    last call. *)
Inductive threaded : option T -> prog T E T -> Prop :=
| threaded_return t : threaded (Some t) (Return t)
| threaded_import prev m ns k :
    threaded prev k -> threaded prev (Import m ns k)
| threaded_call prev c k :
    incoming_of c = prev ->
    (forall t, threaded (Some t) (k t)) ->
    threaded prev (Call c k).

(** The same of a log: each call is applied to the tensor answered to the
    call before it, and nothing follows an exception. *)
Fixpoint chained (prev : option T) (l : log T E) : Prop :=
  match l with
  | [] => True
  | (c, r) :: l' =>
      incoming_of c = prev /\
      match r with
      | inr t => chained (Some t) l'
      | inl _ => l' = []
      end
  end.

(** Two programs make the same first [n] calls as long as the library
    answers them alike. *)
Inductive agree {R} : nat -> prog T E R -> prog T E R -> Prop :=
| agree_O p q : agree O p q
| agree_import n m ns k k' :
    agree n k k' -> agree n (Import m ns k) (Import m ns k')
| agree_S n c k k' :
    (forall t, agree n (k t) (k' t)) -> agree (S n) (Call c k) (Call c k').

End Flow.

(** * Properties *)

(** ** Running programs in general *)

Section ExecFacts.

Context {T E S R : Type}.
Variable lib : library T E S.

Lemma exec_import_raise m ns (k : prog T E R) s e s' :
  import_module lib m ns s = (Some e, s') ->
  exec lib (Import m ns k) s = ([], inl e, s').
Proof. intros H. simpl. now rewrite H. Qed.

Lemma exec_import_return m ns (k : prog T E R) s s' :
  import_module lib m ns s = (None, s') ->
  exec lib (Import m ns k) s = exec lib k s'.
Proof. intros H. simpl. now rewrite H. Qed.

Lemma exec_call_raise (c : call T) (k : T -> prog T E R) s e s' :
  construct lib c s = (inl e, s') ->
  exec lib (Call c k) s = ([(c, inl e)], inl e, s').
Proof. intros H. simpl. now rewrite H. Qed.

Lemma exec_call_return (c : call T) (k : T -> prog T E R) s t s' :
  construct lib c s = (inr t, s') ->
  exec lib (Call c k) s =
    ((c, inr t) :: trace lib (k t) s', outcome lib (k t) s', snd (exec lib (k t) s')).
Proof.
  intros H. unfold trace, outcome. simpl. rewrite H.
  now destruct (exec lib (k t) s') as [[l out] s''].
Qed.

Lemma trace_import_raise m ns (k : prog T E R) s e s' :
  import_module lib m ns s = (Some e, s') -> trace lib (Import m ns k) s = [].
Proof. intros H. unfold trace. now rewrite (exec_import_raise m ns k s e s' H). Qed.

Lemma trace_import_return m ns (k : prog T E R) s s' :
  import_module lib m ns s = (None, s') ->
  trace lib (Import m ns k) s = trace lib k s'.
Proof. intros H. unfold trace. now rewrite (exec_import_return m ns k s s' H). Qed.

Lemma outcome_import_raise m ns (k : prog T E R) s e s' :
  import_module lib m ns s = (Some e, s') -> outcome lib (Import m ns k) s = inl e.
Proof. intros H. unfold outcome. now rewrite (exec_import_raise m ns k s e s' H). Qed.

Lemma outcome_import_return m ns (k : prog T E R) s s' :
  import_module lib m ns s = (None, s') ->
  outcome lib (Import m ns k) s = outcome lib k s'.
Proof. intros H. unfold outcome. now rewrite (exec_import_return m ns k s s' H). Qed.

Lemma trace_call_raise (c : call T) (k : T -> prog T E R) s e s' :
  construct lib c s = (inl e, s') -> trace lib (Call c k) s = [(c, inl e)].
Proof. intros H. unfold trace. now rewrite (exec_call_raise c k s e s' H). Qed.

Lemma trace_call_return (c : call T) (k : T -> prog T E R) s t s' :
  construct lib c s = (inr t, s') ->
  trace lib (Call c k) s = (c, inr t) :: trace lib (k t) s'.
Proof. intros H. unfold trace at 1. now rewrite (exec_call_return c k s t s' H). Qed.

Lemma outcome_call_raise (c : call T) (k : T -> prog T E R) s e s' :
  construct lib c s = (inl e, s') -> outcome lib (Call c k) s = inl e.
Proof. intros H. unfold outcome. now rewrite (exec_call_raise c k s e s' H). Qed.

Lemma outcome_call_return (c : call T) (k : T -> prog T E R) s t s' :
  construct lib c s = (inr t, s') ->
  outcome lib (Call c k) s = outcome lib (k t) s'.
Proof. intros H. unfold outcome at 1. now rewrite (exec_call_return c k s t s' H). Qed.

(** The logged calls are the calls among the events. *)
Lemma trace_events (p : prog T E R) : forall s,
  trace lib p s = calls_of (events lib p s).
Proof.
  induction p as [r0 | e0 | m ns k IH | c0 k IH]; intros s; try reflexivity.
  - simpl events. destruct (import_module lib m ns s) as [[e |] s'] eqn:Hl.
    + now rewrite (trace_import_raise m ns k s e s' Hl).
    + rewrite (trace_import_return m ns k s s' Hl). simpl. apply IH.
  - simpl events. destruct (construct lib c0 s) as [[e | t] s'] eqn:Hl.
    + now rewrite (trace_call_raise c0 k s e s' Hl).
    + rewrite (trace_call_return c0 k s t s' Hl). simpl. f_equal. apply IH.
Qed.



(** An exception answered by the library is not caught: it is the outcome. *)
Lemma events_raised_outcome (p : prog T E R) : forall s ev e,
  In ev (events lib p s) -> raised ev = Some e -> outcome lib p s = inl e.
Proof.
  induction p as [r0 | e0 | m ns k IH | c0 k IH]; intros s ev e;
    try (now intros []); simpl events.
  - destruct (import_module lib m ns s) as [[e' |] s'] eqn:Hl; simpl.
    + rewrite (outcome_import_raise m ns k s e' s' Hl).
      intros [<- | []]. simpl. congruence.
    + rewrite (outcome_import_return m ns k s s' Hl).
      intros [<- | Hin]; [discriminate | eapply IH; eauto].
  - destruct (construct lib c0 s) as [[e' | t] s'] eqn:Hl; simpl.
    + rewrite (outcome_call_raise c0 k s e' s' Hl).
      intros [<- | []]. simpl. congruence.
    + rewrite (outcome_call_return c0 k s t s' Hl).
      intros [<- | Hin]; [discriminate | eapply IH; eauto].
Qed.

Lemma trace_raise_outcome (p : prog T E R) : forall s c e,
  In (c, inl e) (trace lib p s) -> outcome lib p s = inl e.
Proof.
  intros s c e Hin. rewrite trace_events in Hin.
  apply in_flat_map in Hin. destruct Hin as [ev [Hev Hin]].
  apply (events_raised_outcome p s ev e Hev).
  destruct ev as [m ns r | c' r]; simpl in Hin; [destruct Hin |].
  destruct Hin as [Heq | []]. now inversion Heq.
Qed.

Lemma straight_raise_free (p : prog T E R) hs : straight p hs -> raise_free p.
Proof. induction 1; simpl; auto. Qed.


(** The calls of a scripted program are those of its script. *)
Lemma scripted_straight (p : prog T E R) sc : scripted p sc ->
  straight p (flat_map (fun st => match st with
                                  | CallStep h => [h]
                                  | ImportStep _ _ => []
                                  end) sc).
Proof.
  induction 1 as [r | m ns k sc _ IH | c k sc _ IH]; simpl.
  - constructor.
  - now constructor.
  - now constructor.
Qed.

(** A straight program makes a prefix of its calls, in order. *)
Lemma straight_prefix (p : prog T E R) hs : straight p hs -> forall s,
  exists rest, map hyper (calls_made lib p s) ++ rest = hs.
Proof.
  induction 1 as [r | m ns k hs _ IH | c k hs _ IH]; intros s.
  - now exists [].
  - unfold calls_made.
    destruct (import_module lib m ns s) as [[e |] s'] eqn:Hl.
    + rewrite (trace_import_raise m ns k s e s' Hl). now exists hs.
    + rewrite (trace_import_return m ns k s s' Hl). apply IH.
  - unfold calls_made. destruct (construct lib c s) as [[e | t] s'] eqn:Hl.
    + rewrite (trace_call_raise c k s e s' Hl). now exists hs.
    + rewrite (trace_call_return c k s t s' Hl). simpl.
      destruct (IH t s') as [rest Hrest]. exists rest.
      unfold calls_made in Hrest. now rewrite Hrest.
Qed.

(** A straight program that returns has made all its calls. *)
Lemma straight_outcome_return (p : prog T E R) hs :
  straight p hs -> forall s r, outcome lib p s = inr r ->
  map hyper (calls_made lib p s) = hs.
Proof.
  induction 1 as [r0 | m ns k hs _ IH | c k hs _ IH]; intros s r; [reflexivity | |].
  - unfold calls_made.
    destruct (import_module lib m ns s) as [[e |] s'] eqn:Hl.
    + rewrite (outcome_import_raise m ns k s e s' Hl). discriminate.
    + rewrite (outcome_import_return m ns k s s' Hl),
              (trace_import_return m ns k s s' Hl). apply IH.
  - unfold calls_made. destruct (construct lib c s) as [[e | t] s'] eqn:Hl.
    + rewrite (outcome_call_raise c k s e s' Hl). discriminate.
    + rewrite (outcome_call_return c k s t s' Hl),
              (trace_call_return c k s t s' Hl).
      intros Ho. simpl. f_equal. exact (IH t s' r Ho).
Qed.

(** A scripted program runs a prefix of its script, in order. *)
Lemma scripted_prefix (p : prog T E R) sc : scripted p sc -> forall s,
  exists rest, map step_of (events lib p s) ++ rest = sc.
Proof.
  induction 1 as [r | m ns k sc _ IH | c k sc _ IH]; intros s; simpl events.
  - now exists [].
  - destruct (import_module lib m ns s) as [[e |] s'] eqn:Hl.
    + now exists sc.
    + destruct (IH s') as [rest Hrest]. exists rest. simpl. now rewrite Hrest.
  - destruct (construct lib c s) as [[e | t] s'] eqn:Hl.
    + now exists sc.
    + destruct (IH t s') as [rest Hrest]. exists rest. simpl. now rewrite Hrest.
Qed.

(** A scripted program returns exactly when it has run its whole script
    with no exception answered. *)
Lemma scripted_outcome_return (p : prog T E R) sc :
  scripted p sc -> forall s r, outcome lib p s = inr r ->
  map step_of (events lib p s) = sc /\
  Forall (fun x => raised x = None) (events lib p s).
Proof.
  induction 1 as [r0 | m ns k sc _ IH | c k sc _ IH]; intros s r; simpl events.
  - auto.
  - destruct (import_module lib m ns s) as [[e |] s'] eqn:Hl.
    + rewrite (outcome_import_raise m ns k s e s' Hl). discriminate.
    + rewrite (outcome_import_return m ns k s s' Hl). intros Ho.
      destruct (IH s' r Ho) as [Hsc Hall]. simpl. rewrite Hsc. auto.
  - destruct (construct lib c s) as [[e | t] s'] eqn:Hl.
    + rewrite (outcome_call_raise c k s e s' Hl). discriminate.
    + rewrite (outcome_call_return c k s t s' Hl). intros Ho.
      destruct (IH t s' r Ho) as [Hsc Hall]. simpl. rewrite Hsc. auto.
Qed.

(** Against a library that returns, a scripted program runs its whole
    script and returns. *)
Lemma scripted_returns (p : prog T E R) sc : scripted p sc -> returns lib ->
  forall s, map step_of (events lib p s) = sc /\ exists r, outcome lib p s = inr r.
Proof.
  intros Hsc [Himp Hcon].
  induction Hsc as [r | m ns k sc _ IH | c k sc _ IH]; intros s; simpl events.
  - split; [reflexivity | now exists r].
  - destruct (Himp m ns s) as [s' Hl]. rewrite Hl.
    rewrite (outcome_import_return m ns k s s' Hl).
    destruct (IH s') as [Hc Ho]. simpl. now rewrite Hc.
  - destruct (Hcon c s) as [t [s' Hl]]. rewrite Hl.
    rewrite (outcome_call_return c k s t s' Hl).
    destruct (IH t s') as [Hc Ho]. simpl. now rewrite Hc.
Qed.

End ExecFacts.

(** ** Data flow in general *)

Section FlowFacts.

Context {T E S : Type}.
Variable lib : library T E S.

Lemma threaded_chained (p : prog T E T) prev :
  threaded prev p -> forall s, chained prev (trace lib p s).
Proof.
  induction 1 as [t | prev m ns k _ IH | prev c k Hin _ IH]; intros s; [exact I | |].
  - destruct (import_module lib m ns s) as [[e |] s'] eqn:Hl.
    + rewrite (trace_import_raise lib m ns k s e s' Hl). exact I.
    + rewrite (trace_import_return lib m ns k s s' Hl). apply IH.
  - destruct (construct lib c s) as [[e | t] s'] eqn:Hl.
    + rewrite (trace_call_raise lib c k s e s' Hl). simpl. auto.
    + rewrite (trace_call_return lib c k s t s' Hl). simpl. auto.
Qed.

(** A threaded program returns the tensor answered to its last call. *)
Lemma threaded_outcome (p : prog T E T) prev :
  threaded prev p -> forall s r, outcome lib p s = inr r ->
  (trace lib p s = [] /\ prev = Some r) \/
  exists pre c, trace lib p s = pre ++ [(c, inr r)].
Proof.
  induction 1 as [t | prev m ns k _ IH | prev c k Hin _ IH]; intros s r.
  - unfold outcome. simpl. intros Heq. inversion Heq; subst. now left.
  - destruct (import_module lib m ns s) as [[e |] s'] eqn:Hl.
    + rewrite (outcome_import_raise lib m ns k s e s' Hl). discriminate.
    + rewrite (outcome_import_return lib m ns k s s' Hl),
              (trace_import_return lib m ns k s s' Hl). apply IH.
  - destruct (construct lib c s) as [[e | t] s'] eqn:Hl.
    + rewrite (outcome_call_raise lib c k s e s' Hl). discriminate.
    + rewrite (outcome_call_return lib c k s t s' Hl),
              (trace_call_return lib c k s t s' Hl).
      intros Ho. right.
      destruct (IH t s' r Ho) as [[Hnil Hprev] | [pre [c' Hpre]]].
      * inversion Hprev; subst. exists [], c. now rewrite Hnil.
      * exists ((c, inr t) :: pre), c'. now rewrite Hpre.
Qed.

Lemma agree_firstn {R} n (p q : prog T E R) :
  agree n p q -> forall s, firstn n (trace lib p s) = firstn n (trace lib q s).
Proof.
  induction 1 as [p q | n m ns k k' _ IH | n c k k' _ IH]; intros s; [reflexivity | |].
  - destruct (import_module lib m ns s) as [[e |] s'] eqn:Hl.
    + now rewrite (trace_import_raise lib m ns k s e s' Hl),
                  (trace_import_raise lib m ns k' s e s' Hl).
    + rewrite (trace_import_return lib m ns k s s' Hl),
              (trace_import_return lib m ns k' s s' Hl). apply IH.
  - destruct (construct lib c s) as [[e | t] s'] eqn:Hl.
    + now rewrite (trace_call_raise lib c k s e s' Hl),
                  (trace_call_raise lib c k' s e s' Hl).
    + rewrite (trace_call_return lib c k s t s' Hl),
              (trace_call_return lib c k' s t s' Hl).
      simpl. f_equal. apply IH.
Qed.

End FlowFacts.

(** ** The builder is a straight program *)

Lemma mnist_convnet_scripted {T E}
      (train_images train_labels learning_rate drop_prob : pyval) :
  scripted (mnist_convnet (T:=T) (E:=E) train_images train_labels learning_rate drop_prob)
           (convnet_script learning_rate drop_prob).
Proof.
  unfold mnist_convnet, convnet_script, convnet_imports, convnet_layers. simpl.
  do 4 apply scripted_import.
  repeat (match goal with
          | |- scripted (Call ?c _) _ => apply (scripted_call c); intro
          end).
  apply scripted_return.
Qed.

Lemma mnist_convnet_straight {T E} (train_images train_labels learning_rate drop_prob : pyval) :
  straight (mnist_convnet (T:=T) (E:=E) train_images train_labels learning_rate drop_prob)
           (convnet_layers learning_rate drop_prob).
Proof.
  exact (scripted_straight _ _
           (mnist_convnet_scripted train_images train_labels learning_rate drop_prob)).
Qed.

Lemma mnist_convnet_threaded {T E}
      (train_images train_labels learning_rate drop_prob : pyval) :
  threaded None
    (mnist_convnet (T:=T) (E:=E) train_images train_labels learning_rate drop_prob).
Proof.
  unfold mnist_convnet. simpl.
  do 4 apply threaded_import.
  repeat (apply threaded_call; [reflexivity | intro]).
  apply threaded_return.
Qed.

Lemma mnist_convnet_built (train_images train_labels learning_rate drop_prob : pyval) :
  exists t, built (mnist_convnet train_images train_labels learning_rate drop_prob) = Some t
            /\ layers t = convnet_layers learning_rate drop_prob.
Proof. eexists. split; reflexivity. Qed.

(** ** The returned topology *)

(** C1: called with the default learning rate and keep-probability,
    [mnist_convnet] returns a topology of exactly thirteen layers: input,
    convolution, max-pool, local response normalization, convolution,
    max-pool, local response normalization, fully-connected, dropout,
    fully-connected, dropout, fully-connected with softmax, regression. *)
Theorem default_topology_thirteen_layers (train_images train_labels : pyval) :
  exists t,
    built (mnist_convnet_call train_images train_labels None None) = Some t /\
    List.length (layers t) = 13%nat /\
    map kind_of (layers t) =
      [KInput; KConv; KMaxPool; KLrn; KConv; KMaxPool; KLrn;
       KFullyConnected; KDropout; KFullyConnected; KDropout;
       KFullyConnected; KRegression] /\
    nth_error (layers t) 11 = Some (FullyConnected tt 10 "softmax" "softmax").
Proof. eexists. repeat split. Qed.

(** C2: whatever [drop_prob] is, the topology has two dropout layers, the
    ninth and the eleventh layer, and the keep-probability of each is
    [drop_prob] itself. *)
Theorem dropout_layers_share_drop_prob
        (train_images train_labels learning_rate drop_prob : pyval) :
  exists t,
    built (mnist_convnet train_images train_labels learning_rate drop_prob) = Some t /\
    keep_probs (layers t) = [drop_prob; drop_prob] /\
    nth_error (layers t) 8 = Some (Dropout tt drop_prob "dropout") /\
    nth_error (layers t) 10 = Some (Dropout tt drop_prob "dropout").
Proof. eexists. repeat split. Qed.

(** C3: whatever [learning_rate] is, the regression layer, the last one of
    the topology and its only regression layer, carries [learning_rate]
    itself. *)
Theorem regression_learning_rate_is_argument
        (train_images train_labels learning_rate drop_prob : pyval) :
  exists t,
    built (mnist_convnet train_images train_labels learning_rate drop_prob) = Some t /\
    learning_rates (layers t) = [learning_rate] /\
    nth_error (layers t) 12 =
      Some (Regression tt "adam" learning_rate "categorical_crossentropy" "target").
Proof. eexists. repeat split. Qed.

(** C4: for all four arguments, the layer the regression wrapper is applied
    to, the twelfth of the topology, is a fully-connected layer of 10 units
    with softmax activation. *)
Theorem output_layer_ten_units_softmax
        (train_images train_labels learning_rate drop_prob : pyval) :
  exists t,
    built (mnist_convnet train_images train_labels learning_rate drop_prob) = Some t /\
    output_layer t = Some (FullyConnected tt 10 "softmax" "softmax") /\
    nth_error (layers t) 11 = output_layer t.
Proof. eexists. repeat split. Qed.

(** C5: [mnist_convnet(None, None)] is the same program, and so builds the
    same topology, as [mnist_convnet(None, None, learning_rate=0.001,
    drop_prob=0.8)]: the defaults are 0.001 and 0.8. *)
Theorem default_arguments_equivalence :
  (forall T E : Type,
      @mnist_convnet_call T E PyNone PyNone None None =
      mnist_convnet_call PyNone PyNone
        (Some (PyFloat 0.001%float)) (Some (PyFloat 0.8%float))) /\
  built (mnist_convnet_call PyNone PyNone None None) =
    built (mnist_convnet_call PyNone PyNone
             (Some (PyFloat 0.001%float)) (Some (PyFloat 0.8%float))) /\
  exists t,
    built (mnist_convnet_call PyNone PyNone None None) = Some t /\
    learning_rates (layers t) = [PyFloat 0.001%float] /\
    keep_probs (layers t) = [PyFloat 0.8%float; PyFloat 0.8%float].
Proof. split; [| split]; [reflexivity | reflexivity | eexists; repeat split]. Qed.

(** C6: with [learning_rate] and [drop_prob] fixed, two runs that differ in
    [train_images] and [train_labels] are the same program: against every
    library and from every state they make the same calls, with the same
    outcome and final state, and they build the same topology. *)
Theorem train_data_noninterference
        (train_images train_images' train_labels train_labels'
         learning_rate drop_prob : pyval) :
  (forall (T E S : Type) (lib : library T E S) (s : S),
      exec lib (mnist_convnet train_images train_labels learning_rate drop_prob) s =
      exec lib (mnist_convnet train_images' train_labels' learning_rate drop_prob) s) /\
  built (mnist_convnet train_images train_labels learning_rate drop_prob) =
  built (mnist_convnet train_images' train_labels' learning_rate drop_prob).
Proof. split; reflexivity. Qed.

(** C7: the layers carry the hyperparameters of the list: input of shape
    (batch, 28, 28, 1); convolutions of 32 then 64 filters, kernel 3, ReLU,
    L2; max-pools of window 2; hidden fully-connected layers of 128 then 256
    units with tanh; regression with Adam and categorical cross-entropy. *)
Theorem layers_carry_listed_hyperparameters
        (train_images train_labels learning_rate drop_prob : pyval) :
  exists t,
    built (mnist_convnet train_images train_labels learning_rate drop_prob) = Some t /\
    layers t =
      [ InputData [None; Some 28; Some 28; Some 1] "input";
        Conv2d tt 32 3 "relu" "L2" "conv2D";
        MaxPool2d tt 2 "max_pool_2d";
        LocalResponseNormalization tt;
        Conv2d tt 64 3 "relu" "L2" "conv2D";
        MaxPool2d tt 2 "max_pool_2d";
        LocalResponseNormalization tt;
        FullyConnected tt 128 "tanh" "tabh";
        Dropout tt drop_prob "dropout";
        FullyConnected tt 256 "tanh" "tabh";
        Dropout tt drop_prob "dropout";
        FullyConnected tt 10 "softmax" "softmax";
        Regression tt "adam" learning_rate "categorical_crossentropy" "target" ].
Proof. eexists. split; reflexivity. Qed.

(** C9: the [name] keywords do not identify the layers: 'conv2D',
    'max_pool_2d', 'tabh' and 'dropout' are each given twice, to both
    convolutions, both max-pools, both hidden fully-connected layers and
    both dropouts; only 'input', 'softmax' and 'target' are given once. *)
Theorem layer_names_not_unique
        (train_images train_labels learning_rate drop_prob : pyval) :
  exists t,
    built (mnist_convnet train_images train_labels learning_rate drop_prob) = Some t /\
    map name_of (layers t) =
      [ Some "input"; Some "conv2D"; Some "max_pool_2d"; None;
        Some "conv2D"; Some "max_pool_2d"; None;
        Some "tabh"; Some "dropout"; Some "tabh"; Some "dropout";
        Some "softmax"; Some "target" ] /\
    map (fun c => (kind_of c, name_of c))
        (filter (fun c => Nat.eqb (name_count (layers t) c) 2) (layers t)) =
      [ (KConv, Some "conv2D"); (KMaxPool, Some "max_pool_2d");
        (KConv, Some "conv2D"); (KMaxPool, Some "max_pool_2d");
        (KFullyConnected, Some "tabh"); (KDropout, Some "dropout");
        (KFullyConnected, Some "tabh"); (KDropout, Some "dropout") ] /\
    unique_names (names (layers t)) = ["input"; "softmax"; "target"].
Proof. eexists. repeat split. Qed.

(** ** Exceptions and termination, against any library *)

Example picky_rejects_none :
  outcome picky (mnist_convnet PyNone PyNone default_learning_rate PyNone) tt
    = inl "keep_prob" /\
  map kind_of (calls_made picky (mnist_convnet PyNone PyNone default_learning_rate PyNone) tt)
    = [KInput; KConv; KMaxPool; KLrn; KConv; KMaxPool; KLrn; KFullyConnected; KDropout].
Proof. split; reflexivity. Qed.



(** C10, as stated, fails: against a library that rejects a
    keep-probability of [None], the call with [drop_prob=None] returns no
    value but ends with the exception of the first dropout; and where the
    library cannot be imported, the call with the default arguments returns
    no value either. *)
Lemma mnist_convnet_need_not_return :
  outcome picky (mnist_convnet PyNone PyNone default_learning_rate PyNone) tt
    = inl "keep_prob" /\
  ~ (exists t,
        outcome picky (mnist_convnet PyNone PyNone default_learning_rate PyNone) tt
        = inr t) /\
  ~ (exists t,
        outcome uninstalled
          (mnist_convnet PyNone PyNone default_learning_rate default_drop_prob) tt
        = inr t).
Proof.
  split; [reflexivity | split]; intros [t Ht]; discriminate Ht.
Qed.

(** C10, amended: [mnist_convnet] is a straight sequence of four imports
    and thirteen constructor calls, with no loop, recursion or branch.
    For all arguments, against every library and from every state, it stops
    after at most these seventeen steps, of which the ones made are a
    prefix; it returns a value only after all seventeen, none having
    raised; and it does return a value whenever the imports and
    constructors of the library return. *)
Theorem mnist_convnet_terminates
        {T E S : Type} (lib : library T E S) (s : S)
        (train_images train_labels learning_rate drop_prob : pyval) :
  let p := mnist_convnet train_images train_labels learning_rate drop_prob in
  scripted p (convnet_script learning_rate drop_prob) /\
  (exists rest,
      map step_of (events lib p s) ++ rest = convnet_script learning_rate drop_prob) /\
  (List.length (events lib p s) <= 17)%nat /\
  (List.length (calls_made lib p s) <= 13)%nat /\
  (forall t, outcome lib p s = inr t ->
     map step_of (events lib p s) = convnet_script learning_rate drop_prob /\
     Forall (fun x => raised x = None) (events lib p s) /\
     List.length (calls_made lib p s) = 13%nat) /\
  (returns lib ->
   List.length (calls_made lib p s) = 13%nat /\ exists t, outcome lib p s = inr t).
Proof.
  intros p.
  pose proof (mnist_convnet_scripted (T:=T) (E:=E)
                train_images train_labels learning_rate drop_prob) as Hsc.
  pose proof (mnist_convnet_straight (T:=T) (E:=E)
                train_images train_labels learning_rate drop_prob) as Hst.
  fold p in Hsc, Hst.
  assert (Hfull : forall t, outcome lib p s = inr t ->
                            List.length (calls_made lib p s) = 13%nat).
  { intros t Ho.
    pose proof (straight_outcome_return lib p _ Hst s t Ho) as Hc.
    apply (f_equal (@List.length _)) in Hc.
    rewrite length_map in Hc. exact Hc. }
  split; [exact Hsc |].
  destruct (scripted_prefix lib p _ Hsc s) as [rest Hrest].
  split; [now exists rest |]. split; [| split; [| split]].
  - apply (f_equal (@List.length _)) in Hrest.
    rewrite length_app, length_map in Hrest.
    change (List.length (convnet_script learning_rate drop_prob))
      with 17%nat in Hrest. lia.
  - destruct (straight_prefix lib p _ Hst s) as [rest' Hrest'].
    apply (f_equal (@List.length _)) in Hrest'.
    rewrite length_app, length_map in Hrest'.
    change (List.length (convnet_layers learning_rate drop_prob))
      with 13%nat in Hrest'. lia.
  - intros t Ho.
    destruct (scripted_outcome_return lib p _ Hsc s t Ho) as [Hall Hnone].
    repeat split; eauto.
  - intros Hret. destruct (scripted_returns lib p _ Hsc Hret s) as [_ [t Ho]].
    split; eauto.
Qed.

Lemma recorder_returns {E} : returns (recorder (E:=E)).
Proof.
  split.
  - intros m ns s. exists s. reflexivity.
  - intros c s. exists (Layer c), s. reflexivity.
Defined.

Lemma mnist_convnet_terminates_witness :
  returns (recorder (E:=Empty_set)) /\
  List.length (calls_made (E:=Empty_set) recorder
                 (mnist_convnet PyNone PyNone default_learning_rate default_drop_prob) tt)
    = 13%nat /\
  exists t, outcome (E:=Empty_set) recorder
              (mnist_convnet PyNone PyNone default_learning_rate default_drop_prob) tt
            = inr t.
Proof.
  split; [exact recorder_returns |].
  exact (proj2 (proj2 (proj2 (proj2 (proj2
    (mnist_convnet_terminates (E:=Empty_set) recorder tt
       PyNone PyNone default_learning_rate default_drop_prob)))))
    recorder_returns).
Defined.

(** ** Data flow, against any library *)

(** X1: against every library, from every state and for all arguments, the
    first call made has no incoming tensor, every later call is applied to
    exactly the tensor the library answered to the call before it, and no
    call is made after the library answered with an exception. *)
Theorem mnist_convnet_calls_chained
        {T E S : Type} (lib : library T E S) (s : S)
        (train_images train_labels learning_rate drop_prob : pyval) :
  chained None
    (trace lib (mnist_convnet train_images train_labels learning_rate drop_prob) s).
Proof. apply threaded_chained, mnist_convnet_threaded. Qed.

(** X2: when [mnist_convnet] returns a tensor, against any library, that
    tensor is the one the library answered to the thirteenth call, the
    regression call with the Adam optimizer, the given learning rate and
    the categorical cross-entropy loss; the twelve calls before it were
    made with the arguments of lines 8-19. *)
Theorem mnist_convnet_returns_regression_tensor
        {T E S : Type} (lib : library T E S) (s : S)
        (train_images train_labels learning_rate drop_prob : pyval) (t : T) :
  outcome lib (mnist_convnet train_images train_labels learning_rate drop_prob) s
    = inr t ->
  exists pre c,
    trace lib (mnist_convnet train_images train_labels learning_rate drop_prob) s
      = pre ++ [(c, inr t)] /\
    hyper c = Regression tt "adam" learning_rate "categorical_crossentropy" "target" /\
    map hyper (map fst pre) = removelast (convnet_layers learning_rate drop_prob) /\
    List.length pre = 12%nat.
Proof.
  intros Ho.
  set (p := mnist_convnet train_images train_labels learning_rate drop_prob) in *.
  pose proof (mnist_convnet_straight (T:=T) (E:=E)
                train_images train_labels learning_rate drop_prob) as Hst.
  pose proof (mnist_convnet_threaded (T:=T) (E:=E)
                train_images train_labels learning_rate drop_prob) as Hth.
  fold p in Hst, Hth.
  destruct (threaded_outcome lib p None Hth s t Ho) as [[_ Hn] | [pre [c Hpre]]];
    [discriminate |].
  pose proof (straight_outcome_return lib p _ Hst s t Ho) as Hall.
  unfold calls_made in Hall. rewrite Hpre, !map_app in Hall. simpl in Hall.
  change (convnet_layers learning_rate drop_prob)
    with (removelast (convnet_layers learning_rate drop_prob)
            ++ [Regression tt "adam" learning_rate "categorical_crossentropy" "target"])
    in Hall.
  apply app_inj_tail in Hall. destruct Hall as [Hpre' Hc].
  exists pre, c. repeat split; auto.
  apply (f_equal (@List.length _)) in Hpre'.
  now rewrite !length_map in Hpre'.
Qed.

Lemma mnist_convnet_returns_regression_tensor_witness :
  exists t pre c,
    outcome (E:=Empty_set) recorder
      (mnist_convnet PyNone PyNone default_learning_rate default_drop_prob) tt = inr t /\
    trace (E:=Empty_set) recorder
      (mnist_convnet PyNone PyNone default_learning_rate default_drop_prob) tt
      = pre ++ [(c, inr t)] /\
    hyper c = Regression tt "adam" default_learning_rate
                         "categorical_crossentropy" "target".
Proof.
  eexists.
  destruct (mnist_convnet_returns_regression_tensor (E:=Empty_set) recorder tt
              PyNone PyNone default_learning_rate default_drop_prob _ eq_refl)
    as [pre [c [Htr [Hc _]]]].
  exists pre, c. split; [reflexivity | split; assumption].
Defined.

(** X3: the learning rate reaches the regression call only.  Two runs that
    differ in [learning_rate] alone make, against any library and from any
    state, the same first twelve calls with the same answers. *)
Theorem learning_rate_reaches_only_regression
        {T E S : Type} (lib : library T E S) (s : S)
        (train_images train_labels learning_rate learning_rate' drop_prob : pyval) :
  firstn 12 (trace lib (mnist_convnet train_images train_labels
                          learning_rate drop_prob) s) =
  firstn 12 (trace lib (mnist_convnet train_images train_labels
                          learning_rate' drop_prob) s).
Proof.
  apply agree_firstn. unfold mnist_convnet. simpl.
  do 4 apply agree_import.
  repeat (apply agree_S; intro). apply agree_O.
Qed.

(** X4: the keep-probability does not reach the layers before the first
    dropout.  Two runs that differ in [drop_prob] alone make, against any
    library and from any state, the same first eight calls with the same
    answers. *)
Theorem drop_prob_reaches_no_earlier_layer
        {T E S : Type} (lib : library T E S) (s : S)
        (train_images train_labels learning_rate drop_prob drop_prob' : pyval) :
  firstn 8 (trace lib (mnist_convnet train_images train_labels
                         learning_rate drop_prob) s) =
  firstn 8 (trace lib (mnist_convnet train_images train_labels
                         learning_rate drop_prob') s).
Proof.
  apply agree_firstn. unfold mnist_convnet. simpl.
  do 4 apply agree_import.
  do 8 (apply agree_S; intro). apply agree_O.
Qed.

(** X5: the topology determines the two hyperparameters: two calls build
    the same topology exactly when they agree on [learning_rate] and on
    [drop_prob], whatever the training data given. *)
Theorem topology_determines_hyperparameters
        (train_images train_images' train_labels train_labels'
         learning_rate learning_rate' drop_prob drop_prob' : pyval) :
  built (mnist_convnet train_images train_labels learning_rate drop_prob) =
  built (mnist_convnet train_images' train_labels' learning_rate' drop_prob')
  <-> learning_rate = learning_rate' /\ drop_prob = drop_prob'.
Proof.
  split.
  - intros H.
    destruct (mnist_convnet_built train_images train_labels learning_rate drop_prob)
      as [t [Hb Hl]].
    destruct (mnist_convnet_built train_images' train_labels' learning_rate' drop_prob')
      as [t' [Hb' Hl']].
    rewrite Hb, Hb' in H. inversion H; subst t'.
    rewrite Hl in Hl'. unfold convnet_layers in Hl'.
    inversion Hl'. split; reflexivity.
  - intros [-> ->]. reflexivity.
Qed.

(** X6: the two keyword arguments default independently.  A call that
    gives [learning_rate] alone builds dropout layers with the default
    keep-probability 0.8, and a call that gives [drop_prob] alone builds
    the regression layer with the default learning rate 0.001; the keyword
    given is used as it is. *)
Theorem keywords_default_independently (train_images train_labels v : pyval) :
  (exists t,
      built (mnist_convnet_call train_images train_labels (Some v) None) = Some t /\
      learning_rates (layers t) = [v] /\
      keep_probs (layers t) = [PyFloat 0.8%float; PyFloat 0.8%float]) /\
  (exists t,
      built (mnist_convnet_call train_images train_labels None (Some v)) = Some t /\
      learning_rates (layers t) = [PyFloat 0.001%float] /\
      keep_probs (layers t) = [v; v]).
Proof. split; eexists; repeat split. Qed.
